(** * The feedback handler of [backend/lambda_function.py]

    A shallow embedding of the Lambda handler that receives a feedback
    submission from API Gateway, validates it and writes one item to a
    DynamoDB table, followed by the properties its specification states.

    The handler is dynamically typed Python: the request, the decoded body
    and the fields taken out of it are arbitrary JSON-shaped Python values,
    and several branches of the handler are decided by the run-time type of
    a value (truthiness, [isinstance], a missing method).  The embedding
    therefore keeps a type of Python values and models the few operations
    on them that the handler uses, with the exceptions they raise. *)

From Stdlib Require Import ZArith String Ascii List Bool Lia.
From Stdlib Require Import Floats.SpecFloat.
From stdpp Require Import base option gmap strings.

Import ListNotations.
Local Open Scope string_scope.
Local Open Scope Z_scope.

(** ** Python values *)

Module Py.

(** The values [json.loads] can produce, which are also the values an API
    Gateway event is made of.  A [dict] keeps its entries in insertion
    order, as Python does; keys are unique in a dict built by [dict_set].
    A [str] is a sequence of code points; this development covers the code
    points below 256, one per character of a Rocq string. *)
#[warnings="-register-all"]
Inductive pyval : Type :=
| PyNone
| PyBool (b : bool)
| PyInt (n : Z)
| PyFloat (x : spec_float)
| PyStr (s : string)
| PyList (items : list pyval)
| PyDict (entries : list (string * pyval)).

(** [type(v).__name__] *)
Definition type_name (v : pyval) : string :=
  match v with
  | PyNone => "NoneType"
  | PyBool _ => "bool"
  | PyInt _ => "int"
  | PyFloat _ => "float"
  | PyStr _ => "str"
  | PyList _ => "list"
  | PyDict _ => "dict"
  end.

(** [bool(v)], the test behind [not v]. *)
Definition truthy (v : pyval) : bool :=
  match v with
  | PyNone => false
  | PyBool b => b
  | PyInt n => negb (n =? 0)
  | PyFloat (S754_zero _) => false
  | PyFloat _ => true
  | PyStr s => negb (String.eqb s EmptyString)
  | PyList items => match items with [] => false | _ => true end
  | PyDict entries => match entries with [] => false | _ => true end
  end.

(** [v == s] for a string literal [s]: only an equal [str] compares equal. *)
Definition eq_str (v : pyval) (s : string) : bool :=
  match v with
  | PyStr t => String.eqb t s
  | _ => false
  end.

(** [isinstance(v, int)]: [bool] is a subclass of [int]. *)
Definition isinstance_int (v : pyval) : bool :=
  match v with
  | PyInt _ | PyBool _ => true
  | _ => false
  end.

(** The integer an [int] instance stands for in a comparison
    ([True] is 1 and [False] is 0). *)
Definition int_value (v : pyval) : option Z :=
  match v with
  | PyInt n => Some n
  | PyBool b => Some (if b then 1 else 0)
  | _ => None
  end.

(** *** Exceptions *)

(** The exception classes the handler can meet.  All of them derive from
    [Exception]; [JSONDecodeError] derives from [ValueError], and only
    [KeyError] itself is an instance of [KeyError]. *)
Inductive exc_class : Type :=
| JSONDecodeError
| KeyError
| TypeError
| AttributeError
| ValueError
| RecursionError
| ClientError
| RuntimeError.

(** An exception: its class and [str(e)]. *)
Record exn : Type := Exn { exc_type : exc_class; exc_str : string }.

(** The outcome of evaluating an expression. *)
Inductive result (A : Type) : Type :=
| Ok (a : A)
| Raise (e : exn).
Arguments Ok {A} a.
Arguments Raise {A} e.

(** *** Dictionaries *)

Fixpoint dict_lookup (k : string) (d : list (string * pyval)) : option pyval :=
  match d with
  | [] => None
  | (k', v) :: rest => if String.eqb k' k then Some v else dict_lookup k rest
  end.

(** [d[k] = v]: an existing key keeps its place, a new one goes last. *)
Fixpoint dict_set (k : string) (v : pyval) (d : list (string * pyval))
  : list (string * pyval) :=
  match d with
  | [] => [(k, v)]
  | (k', v') :: rest =>
      if String.eqb k' k then (k', v) :: rest else (k', v') :: dict_set k v rest
  end.

(** [repr(k)] of a key as [KeyError] shows it (keys here need no escape). *)
Definition repr_key (k : string) : string := "'" +:+ k +:+ "'".

(** [d[k]] on a dict. *)
Definition getitem (d : list (string * pyval)) (k : string) : result pyval :=
  match dict_lookup k d with
  | Some v => Ok v
  | None => Raise (Exn KeyError (repr_key k))
  end.

Definition no_attribute (v : pyval) (attr : string) : exn :=
  Exn AttributeError
      ("'" +:+ type_name v +:+ "' object has no attribute '" +:+ attr +:+ "'").

(** [obj.get(k, dflt)]: only a dict has the method. *)
Definition get (obj : pyval) (k : string) (dflt : pyval) : result pyval :=
  match obj with
  | PyDict d => Ok (default dflt (dict_lookup k d))
  | _ => Raise (no_attribute obj "get")
  end.

(** *** [str.strip] *)

(** [c.isspace()] for a code point below 256. *)
Definition isspace (c : ascii) : bool :=
  let n := Z.of_nat (nat_of_ascii c) in
  ((9 <=? n) && (n <=? 13)) || ((28 <=? n) && (n <=? 32))
  || (n =? 133) || (n =? 160).

Fixpoint lstrip (s : string) : string :=
  match s with
  | String c rest => if isspace c then lstrip rest else s
  | EmptyString => EmptyString
  end.

Fixpoint rstrip (s : string) : string :=
  match s with
  | String c rest =>
      match rstrip rest with
      | EmptyString => if isspace c then EmptyString else String c EmptyString
      | kept => String c kept
      end
  | EmptyString => EmptyString
  end.

Definition str_strip (s : string) : string := rstrip (lstrip s).

(** [obj.strip()]: only a [str] has the method (among the values here). *)
Definition strip (obj : pyval) : result string :=
  match obj with
  | PyStr s => Ok (str_strip s)
  | _ => Raise (no_attribute obj "strip")
  end.

End Py.
Export Py.

(** ** [json.dumps] on the dicts the handler serialises *)

Module Json.

(** The handler only ever serialises dict literals whose values are
    [True], [False] or a [str]. *)
Inductive scalar : Type :=
| JBool (b : bool)
| JStr (s : string).

Definition hex_digit (n : N) : ascii :=
  ascii_of_N (if (n <? 10)%N then 48 + n else 87 + n).

(** One code point under [ensure_ascii=True]: the short escapes, printable
    ASCII as it is, anything else as a lower-case [\uXXXX] escape. *)
Definition escape_char (c : ascii) : string :=
  let n := N_of_ascii c in
  if (n =? 34)%N then "\" +:+ String c EmptyString
  else if (n =? 92)%N then "\\"
  else if (n =? 10)%N then "\n"
  else if (n =? 13)%N then "\r"
  else if (n =? 9)%N then "\t"
  else if (n =? 8)%N then "\b"
  else if (n =? 12)%N then "\f"
  else if ((32 <=? n) && (n <=? 126))%N then String c EmptyString
  else "\u00" +:+ String (hex_digit (n / 16)) (String (hex_digit (n mod 16)) EmptyString).

Fixpoint escape (s : string) : string :=
  match s with
  | EmptyString => EmptyString
  | String c rest => escape_char c +:+ escape rest
  end.

Definition quote (s : string) : string :=
  String (ascii_of_N 34) (escape s) +:+ String (ascii_of_N 34) EmptyString.

Definition dumps_scalar (v : scalar) : string :=
  match v with
  | JBool true => "true"
  | JBool false => "false"
  | JStr s => quote s
  end.

Definition dumps_entry (kv : string * scalar) : string :=
  quote (fst kv) +:+ ": " +:+ dumps_scalar (snd kv).

Fixpoint dumps_entries (o : list (string * scalar)) : string :=
  match o with
  | [] => EmptyString
  | [kv] => dumps_entry kv
  | kv :: rest => dumps_entry kv +:+ ", " +:+ dumps_entries rest
  end.

(** [json.dumps(o)] with the default separators. *)
Definition dumps (o : list (string * scalar)) : string :=
  "{" +:+ dumps_entries o +:+ "}".

End Json.

(** ** The world around the handler *)

(** The item the handler hands to [table.put_item], with the keys of the
    dict literal it builds.  [Name], [Email], [Category] and [Rating] are
    whatever values the body carried; [Comment] is the result of
    [str.strip] and so a string. *)
Record Item : Type := mkItem {
  feedback_id : string;
  Name : pyval;
  Email : pyval;
  Category : pyval;
  Rating : pyval;
  Comment : string;
  Timestamp : string
}.

(** What the handler reads from and writes to besides its argument:
    the identifiers [uuid.uuid4()] will draw, the readings of the clock,
    and the DynamoDB table.  [store_fault n it] is the exception the table
    answers the [n]-th [put_item] call with when that call carries [it]
    ([None]: the write goes through).  [put_log] records every call of
    [put_item], whether or not it went through. *)
Record World : Type := mkWorld {
  uuid_source : nat -> string;
  uuid_drawn : nat;
  clock_source : nat -> string;
  clock_read : nat;
  store_fault : nat -> Item -> option exn;
  table : gmap string Item;
  put_log : list Item
}.

(** *** Computations: state of the world and exceptions *)

Definition M (A : Type) : Type := World -> result A * World.

Definition ret {A} (a : A) : M A := fun w => (Ok a, w).

Definition bind {A B} (m : M A) (k : A -> M B) : M B :=
  fun w =>
    match m w with
    | (Ok a, w') => k a w'
    | (Raise e, w') => (Raise e, w')
    end.

(** An expression that touches nothing outside. *)
Definition lift {A} (r : result A) : M A := fun w => (r, w).

(** [try: body  except Exception as e: handler e] *)
Definition try_except {A} (body : M A) (handler : exn -> M A) : M A :=
  fun w =>
    match body w with
    | (Ok a, w') => (Ok a, w')
    | (Raise e, w') => handler e w'
    end.

Notation "x <- m ;; k" := (bind m (fun x => k))
  (at level 100, m at next level, right associativity).

(** [str(uuid.uuid4())] *)
Definition uuid4 : M string :=
  fun w =>
    (Ok (uuid_source w (uuid_drawn w)),
     mkWorld (uuid_source w) (S (uuid_drawn w)) (clock_source w) (clock_read w)
             (store_fault w) (table w) (put_log w)).

(** [datetime.now().isoformat()] *)
Definition now_isoformat : M string :=
  fun w =>
    (Ok (clock_source w (clock_read w)),
     mkWorld (uuid_source w) (uuid_drawn w) (clock_source w) (S (clock_read w))
             (store_fault w) (table w) (put_log w)).

(** [table.put_item(Item=it)]: the call is made; either the table raises
    and keeps its contents, or the item is stored under its partition key
    [feedback_id], replacing an item with the same key. *)
Definition put_item (it : Item) : M unit :=
  fun w =>
    match store_fault w (length (put_log w)) it with
    | Some e =>
        (Raise e,
         mkWorld (uuid_source w) (uuid_drawn w) (clock_source w) (clock_read w)
                 (store_fault w) (table w) (put_log w ++ [it]))
    | None =>
        (Ok tt,
         mkWorld (uuid_source w) (uuid_drawn w) (clock_source w) (clock_read w)
                 (store_fault w) (<[feedback_id it := it]> (table w))
                 (put_log w ++ [it]))
    end.

(** ** Module initialisation (lines 9-16) *)

(** [os.environ.get('DYNAMODB_TABLE_NAME')] followed by the check that the
    name is set: importing the module raises [ValueError] when the variable
    is absent or empty, and the handler is then never defined. *)
Definition module_init (environ : gmap string string) : result string :=
  match environ !! "DYNAMODB_TABLE_NAME" with
  | Some table_name =>
      if String.eqb table_name EmptyString
      then Raise (Exn ValueError
                      "DYNAMODB_TABLE_NAME environment variable is not set.")
      else Ok table_name
  | None =>
      Raise (Exn ValueError
                 "DYNAMODB_TABLE_NAME environment variable is not set.")
  end.

(** ** The handler *)

(** The dict the handler returns to API Gateway. *)
Record Response : Type := mkResponse {
  statusCode : Z;
  headers : list (string * string);
  body : string
}.

Definition cors_headers : list (string * string) :=
  [ ("Access-Control-Allow-Origin", "*");
    ("Access-Control-Allow-Headers",
     "Content-Type,X-Amz-Date,Authorization,X-Api-Key,X-Amz-Security-Token");
    ("Access-Control-Allow-Methods", "POST,OPTIONS") ].

(** [not isinstance(rating, int) or rating < 1 or rating > 5]; the
    comparisons are reached only for an [int] instance. *)
Definition rating_rejected (rating : pyval) : bool :=
  negb (isinstance_int rating)
  || match int_value rating with
     | Some n => (n <? 1) || (n >? 5)
     | None => false
     end.

Section Handler.

(** [json.loads] on a [str]: the decoded value, or the exception raised
    ([JSONDecodeError] for a text that is not JSON; the decoder may also
    give up with another exception, such as [RecursionError] on a text
    nested too deeply).  The decoder belongs to Python's library, and the
    handler is studied for any behaviour of it. *)
Variable json_loads : string -> result pyval.

(** [json.loads(x)] for an arbitrary argument: anything but a [str]
    (there are no [bytes] in an event) is a [TypeError]. *)
Definition loads (x : pyval) : result pyval :=
  match x with
  | PyStr s => json_loads s
  | _ => Raise (Exn TypeError
                    ("the JSON object must be str, bytes or bytearray, not "
                     +:+ type_name x))
  end.

(** The body of the [try] statement (lines 53-127).  A [return] inside it
    is a normal outcome; an exception leaves it through [Raise]. *)
Definition submit (event : list (string * pyval)) : M Response :=
  raw <- lift (getitem event "body") ;;
  body <- lift (loads raw) ;;
  name <- lift (get body "name" (PyStr "Anonymous")) ;;
  email <- lift (get body "email" (PyStr "N/A")) ;;
  category <- lift (get body "category" (PyStr "General")) ;;
  rating <- lift (get body "rating" (PyInt 0)) ;;
  comment_raw <- lift (get body "comment" (PyStr EmptyString)) ;;
  comment <- lift (strip comment_raw) ;;
  if negb (truthy name) then
    ret {| statusCode := 400;
           headers := cors_headers;
           body := Json.dumps [("success", Json.JBool false);
                               ("error", Json.JStr "Feedback name cannot be empty.")] |}
  else if negb (truthy email) then
    ret {| statusCode := 400;
           headers := cors_headers;
           body := Json.dumps [("success", Json.JBool false);
                               ("error", Json.JStr "Feedback email cannot be empty.")] |}
  else if negb (truthy (PyStr comment)) then
    ret {| statusCode := 400;
           headers := cors_headers;
           body := Json.dumps [("success", Json.JBool false);
                               ("error", Json.JStr "Feedback comment cannot be empty.")] |}
  else if rating_rejected rating then
    ret {| statusCode := 400;
           headers := cors_headers;
           body := Json.dumps [("success", Json.JBool false);
                               ("error", Json.JStr "Rating must be an integer between 1 and 5.")] |}
  else
    feedback_id <- uuid4 ;;
    timestamp <- now_isoformat ;;
    let item := {| feedback_id := feedback_id;
                   Name := name;
                   Email := email;
                   Category := category;
                   Rating := rating;
                   Comment := comment;
                   Timestamp := timestamp |} in
    _ <- put_item item ;;
    ret {| statusCode := 200;
           headers := cors_headers;
           body := Json.dumps [("success", Json.JBool true);
                               ("message", Json.JStr "Feedback submitted successfully!");
                               ("feedbackId", Json.JStr feedback_id)] |}.

(** The three [except] clauses (lines 129-153), tried in order. *)
Definition on_exception (e : exn) : M Response :=
  match exc_type e with
  | JSONDecodeError =>
      ret {| statusCode := 400;
             headers := cors_headers;
             body := Json.dumps [("success", Json.JBool false);
                                 ("error", Json.JStr "Invalid JSON in request body.")] |}
  | KeyError =>
      ret {| statusCode := 400;
             headers := cors_headers;
             body := Json.dumps [("success", Json.JBool false);
                                 ("error", Json.JStr ("Missing expected field: " +:+ exc_str e))] |}
  | _ =>
      ret {| statusCode := 500;
             headers := cors_headers;
             body := Json.dumps [("success", Json.JBool false);
                                 ("error", Json.JStr ("Internal server error: " +:+ exc_str e))] |}
  end.

(** [lambda_handler(event, context)].  [context] is never used.  The
    [print] calls are left out: they write to the log only, and
    [json.dumps(event)] cannot fail on an event made of JSON values.
    [event['httpMethod']] sits outside the [try]: its [KeyError] leaves
    the handler. *)
Definition lambda_handler (event : list (string * pyval)) : M Response :=
  method <- lift (getitem event "httpMethod") ;;
  if eq_str method "OPTIONS" then
    ret {| statusCode := 200;
           headers := cors_headers;
           body := EmptyString |}
  else if eq_str method "POST" then
    try_except (submit event) on_exception
  else
    ret {| statusCode := 405;
           headers := cors_headers;
           body := Json.dumps [("success", Json.JBool false);
                               ("error", Json.JStr "Method Not Allowed")] |}.

End Handler.

(** ** A JSON decoder to run the handler with *)

(** A decoder in the manner of Python's [json.loads], used to run the
    handler on request bodies given as text.  It follows the grammar the
    Python scanner accepts: the four blank characters, the literals
    (with [NaN], [Infinity] and [-Infinity]), integers of any size,
    numbers with a fraction or an exponent as doubles rounded to nearest
    even, strings in strict mode, arrays and objects (a repeated key
    keeps its last value).  Two things are left out: the text of the
    error message, which the handler never looks at, and [\uXXXX]
    escapes above [00ff], which denote code points outside the strings
    modelled here and are refused.  Every theorem about the handler holds
    for any decoder; this one supplies the examples. *)
Module Decoder.

Definition code (c : ascii) : N := N_of_ascii c.

Definition is_ws (c : ascii) : bool :=
  let n := code c in
  ((n =? 32) || (n =? 9) || (n =? 10) || (n =? 13))%N.

Fixpoint skip_ws (s : string) : string :=
  match s with
  | String c rest => if is_ws c then skip_ws rest else s
  | EmptyString => s
  end.

Definition digit (c : ascii) : option Z :=
  let n := code c in
  if ((48 <=? n) && (n <=? 57))%N then Some (Z.of_N (n - 48)) else None.

Definition hex (c : ascii) : option N :=
  let n := code c in
  if ((48 <=? n) && (n <=? 57))%N then Some (n - 48)%N
  else if ((97 <=? n) && (n <=? 102))%N then Some (n - 87)%N
  else if ((65 <=? n) && (n <=? 70))%N then Some (n - 55)%N
  else None.

(** A maximal run of digits: its value, its length and what follows. *)
Fixpoint digits (s : string) (acc count : Z) : Z * Z * string :=
  match s with
  | String c rest =>
      match digit c with
      | Some d => digits rest (10 * acc + d) (count + 1)
      | None => (acc, count, s)
      end
  | EmptyString => (acc, count, s)
  end.

Fixpoint strip_prefix (p s : string) : option string :=
  match p, s with
  | EmptyString, _ => Some s
  | String a p', String b s' => if Ascii.eqb a b then strip_prefix p' s' else None
  | String _ _, EmptyString => None
  end.

(** The double nearest to [(-1)^neg * m * 10^e10], ties to even. *)
Definition to_float (neg : bool) (m e10 : Z) : spec_float :=
  match m with
  | Zpos p =>
      if 0 <=? e10
      then binary_normalize 53 1024 ((if neg then - m else m) * 10 ^ e10) 0 false
      else SFdiv 53 1024 (S754_finite neg p 0)
                 (S754_finite false (Z.to_pos (10 ^ (- e10))) 0)
  | _ => S754_zero neg
  end.

(** The integer part: a lone [0], or a run of digits not starting with 0. *)
Definition int_part (s : string) : option (Z * string) :=
  match s with
  | String c rest =>
      match digit c with
      | Some 0 => Some (0, rest)
      | Some _ => let '(v, _, rest') := digits s 0 0 in Some (v, rest')
      | None => None
      end
  | EmptyString => None
  end.

(** [.digits], taken only when a digit follows the point. *)
Definition frac_part (s : string) : option (Z * Z * string) :=
  match s with
  | String c (String d rest as after) =>
      if (code c =? 46)%N && bool_decide (is_Some (digit d))
      then Some (digits after 0 0) else None
  | _ => None
  end.

(** [e], an optional sign and digits, taken only when a digit is there. *)
Definition exp_part (s : string) : option (Z * string) :=
  match s with
  | String c rest =>
      if ((code c =? 101) || (code c =? 69))%N then
        let '(neg, rest1) :=
          match rest with
          | String sg rest' =>
              if (code sg =? 45)%N then (true, rest')
              else if (code sg =? 43)%N then (false, rest')
              else (false, rest)
          | EmptyString => (false, rest)
          end in
        let '(v, count, rest2) := digits rest1 0 0 in
        if 0 <? count then Some (if neg then - v else v, rest2) else None
      else None
  | EmptyString => None
  end.

Definition number (s : string) : option (pyval * string) :=
  let '(neg, s1) :=
    match s with
    | String c rest => if (code c =? 45)%N then (true, rest) else (false, s)
    | EmptyString => (false, s)
    end in
  match int_part s1 with
  | None => None
  | Some (i, s2) =>
      let '(f, fcount, s3, has_frac) :=
        match frac_part s2 with
        | Some (f, fcount, s3) => (f, fcount, s3, true)
        | None => (0, 0, s2, false)
        end in
      let '(e, s4, has_exp) :=
        match exp_part s3 with
        | Some (e, s4) => (e, s4, true)
        | None => (0, s3, false)
        end in
      if has_frac || has_exp
      then Some (PyFloat (to_float neg (i * 10 ^ fcount + f) (e - fcount)), s4)
      else Some (PyInt (if neg then - i else i), s4)
  end.

Definition simple_escape (c : ascii) : option ascii :=
  let n := code c in
  if ((n =? 34) || (n =? 92) || (n =? 47))%N then Some c
  else if (n =? 98)%N then Some (ascii_of_N 8)
  else if (n =? 102)%N then Some (ascii_of_N 12)
  else if (n =? 110)%N then Some (ascii_of_N 10)
  else if (n =? 114)%N then Some (ascii_of_N 13)
  else if (n =? 116)%N then Some (ascii_of_N 9)
  else None.

Definition cons_char (c : ascii) (r : option (string * string))
  : option (string * string) :=
  match r with
  | Some (s, rest) => Some (String c s, rest)
  | None => None
  end.

(** The characters of a string after its opening quote, up to and
    including the closing one. *)
Fixpoint string_body (s : string) : option (string * string) :=
  match s with
  | EmptyString => None
  | String c rest =>
      if (code c =? 34)%N then Some (EmptyString, rest)
      else if (code c =? 92)%N then
        match rest with
        | String e rest1 =>
            match simple_escape e with
            | Some c' => cons_char c' (string_body rest1)
            | None =>
                if (code e =? 117)%N then
                  match rest1 with
                  | String h1 (String h2 (String h3 (String h4 rest2))) =>
                      match hex h1, hex h2, hex h3, hex h4 with
                      | Some 0%N, Some 0%N, Some a, Some b =>
                          cons_char (ascii_of_N (16 * a + b)) (string_body rest2)
                      | _, _, _, _ => None
                      end
                  | _ => None
                  end
                else None
            end
        | EmptyString => None
        end
      else if (code c <? 32)%N then None
      else cons_char c (string_body rest)
  end.

Fixpoint value (fuel : nat) (s : string) : option (pyval * string) :=
  match fuel with
  | O => None
  | S fuel' =>
      match s with
      | EmptyString => None
      | String c rest =>
          if (code c =? 34)%N then
            match string_body rest with
            | Some (str, rest') => Some (PyStr str, rest')
            | None => None
            end
          else if (code c =? 123)%N then
            match skip_ws rest with
            | String c' rest' as inner =>
                if (code c' =? 125)%N then Some (PyDict [], rest')
                else members fuel' inner []
            | EmptyString => None
            end
          else if (code c =? 91)%N then
            match skip_ws rest with
            | String c' rest' as inner =>
                if (code c' =? 93)%N then Some (PyList [], rest')
                else elements fuel' inner []
            | EmptyString => None
            end
          else
            match strip_prefix "null" s, strip_prefix "true" s,
                  strip_prefix "false" s with
            | Some r, _, _ => Some (PyNone, r)
            | _, Some r, _ => Some (PyBool true, r)
            | _, _, Some r => Some (PyBool false, r)
            | None, None, None =>
                match strip_prefix "NaN" s, strip_prefix "Infinity" s,
                      strip_prefix "-Infinity" s with
                | Some r, _, _ => Some (PyFloat S754_nan, r)
                | _, Some r, _ => Some (PyFloat (S754_infinity false), r)
                | _, _, Some r => Some (PyFloat (S754_infinity true), r)
                | None, None, None => number s
                end
            end
      end
  end

(** The members of an object, from a key on; [acc] holds those read. *)
with members (fuel : nat) (s : string) (acc : list (string * pyval))
  : option (pyval * string) :=
  match fuel with
  | O => None
  | S fuel' =>
      match s with
      | String q rest =>
          if (code q =? 34)%N then
            match string_body rest with
            | Some (key, rest1) =>
                match skip_ws rest1 with
                | String colon rest2 =>
                    if (code colon =? 58)%N then
                      match value fuel' (skip_ws rest2) with
                      | Some (v, rest3) =>
                          let acc' := dict_set key v acc in
                          match skip_ws rest3 with
                          | String d rest4 =>
                              if (code d =? 125)%N then Some (PyDict acc', rest4)
                              else if (code d =? 44)%N
                              then members fuel' (skip_ws rest4) acc'
                              else None
                          | EmptyString => None
                          end
                      | None => None
                      end
                    else None
                | EmptyString => None
                end
            | None => None
            end
          else None
      | EmptyString => None
      end
  end

(** The elements of an array, from a value on. *)
with elements (fuel : nat) (s : string) (acc : list pyval)
  : option (pyval * string) :=
  match fuel with
  | O => None
  | S fuel' =>
      match value fuel' s with
      | Some (v, rest) =>
          match skip_ws rest with
          | String d rest1 =>
              if (code d =? 93)%N then Some (PyList (acc ++ [v]), rest1)
              else if (code d =? 44)%N
              then elements fuel' (skip_ws rest1) (acc ++ [v])
              else None
          | EmptyString => None
          end
      | None => None
      end
  end.

(** [json.loads(s)]: one value with blanks around it and nothing else. *)
Definition json_loads (s : string) : result pyval :=
  match value (S (String.length s)) (skip_ws s) with
  | Some (v, rest) =>
      match skip_ws rest with
      | EmptyString => Ok v
      | String _ _ => Raise (Exn JSONDecodeError "Extra data")
      end
  | None => Raise (Exn JSONDecodeError "Expecting value")
  end.

End Decoder.

(** ** Vocabulary of the properties *)

(** [d.get(k, dflt)] on the entries of a dict. *)
Definition field (d : list (string * pyval)) (k : string) (dflt : pyval) : pyval :=
  default dflt (dict_lookup k d).

(** The request carries this HTTP method. *)
Definition has_method (event : list (string * pyval)) (m : string) : Prop :=
  dict_lookup "httpMethod" event = Some (PyStr m).

(** The body of an error response and of the success response. *)
Definition error_body (message : string) : string :=
  Json.dumps [("success", Json.JBool false); ("error", Json.JStr message)].

Definition success_body (id : string) : string :=
  Json.dumps [("success", Json.JBool true);
              ("message", Json.JStr "Feedback submitted successfully!");
              ("feedbackId", Json.JStr id)].

(** The four validations on the fields of a decoded body [d] whose
    comment is the string [c], each as the handler tests it. *)
Definition name_ok (d : list (string * pyval)) : bool :=
  truthy (field d "name" (PyStr "Anonymous")).

Definition email_ok (d : list (string * pyval)) : bool :=
  truthy (field d "email" (PyStr "N/A")).

Definition comment_ok (c : string) : bool :=
  truthy (PyStr (str_strip c)).

Definition rating_ok (d : list (string * pyval)) : bool :=
  negb (rating_rejected (field d "rating" (PyInt 0))).

(** The item a valid submission gives rise to in world [w]. *)
Definition new_item (w : World) (d : list (string * pyval)) (c : string) : Item :=
  {| feedback_id := uuid_source w (uuid_drawn w);
     Name := field d "name" (PyStr "Anonymous");
     Email := field d "email" (PyStr "N/A");
     Category := field d "category" (PyStr "General");
     Rating := field d "rating" (PyInt 0);
     Comment := str_strip c;
     Timestamp := clock_source w (clock_read w) |}.

(** The world after [put_item it] was called in [w], one identifier and
    one clock reading having been taken; [stored] tells whether the table
    accepted the item. *)
Definition after_put (w : World) (it : Item) (stored : bool) : World :=
  mkWorld (uuid_source w) (S (uuid_drawn w)) (clock_source w) (S (clock_read w))
          (store_fault w)
          (if stored then <[feedback_id it := it]> (table w) else table w)
          (put_log w ++ [it]).

(** What lines 53-61 make of the event: the entries of the decoded body
    and its comment before stripping, or the exception that ends the
    [try] body before any validation. *)
Definition read_body (json_loads : string -> result pyval)
    (event : list (string * pyval)) : result (list (string * pyval) * string) :=
  match getitem event "body" with
  | Raise e => Raise e
  | Ok raw =>
      match loads json_loads raw with
      | Raise e => Raise e
      | Ok (PyDict d) =>
          match field d "comment" (PyStr EmptyString) with
          | PyStr c => Ok (d, c)
          | other => Raise (no_attribute other "strip")
          end
      | Ok other => Raise (no_attribute other "get")
      end
  end.

(** The body of the event is a text that decodes to the dict [d], whose
    comment (after the default) is the string [c]. *)
Definition decodes_to (json_loads : string -> result pyval)
    (event : list (string * pyval)) (d : list (string * pyval)) (c : string) : Prop :=
  exists s, dict_lookup "body" event = Some (PyStr s) /\
            json_loads s = Ok (PyDict d) /\
            field d "comment" (PyStr EmptyString) = PyStr c.

(** A request the handler accepts: a POST whose body decodes to a dict
    with a string comment and passes the four validations. *)
Definition valid_post (json_loads : string -> result pyval)
    (event : list (string * pyval)) : bool :=
  match dict_lookup "httpMethod" event with
  | Some method =>
      eq_str method "POST"
      && match read_body json_loads event with
         | Ok (d, c) => name_ok d && email_ok d && comment_ok c && rating_ok d
         | Raise _ => false
         end
  | None => false
  end.

(** The paths through [lambda_handler]: each constructor is one way the
    handler can run on [event] in world [w], with the outcome and the
    world it leaves. *)
Inductive Run (json_loads : string -> result pyval)
    (event : list (string * pyval)) (w : World) : result Response * World -> Prop :=
| RunNoMethod :
    dict_lookup "httpMethod" event = None ->
    Run json_loads event w (Raise (Exn KeyError (repr_key "httpMethod")), w)
| RunOptions :
    has_method event "OPTIONS" ->
    Run json_loads event w (Ok (mkResponse 200 cors_headers EmptyString), w)
| RunNotAllowed method :
    dict_lookup "httpMethod" event = Some method ->
    eq_str method "OPTIONS" = false -> eq_str method "POST" = false ->
    Run json_loads event w
        (Ok (mkResponse 405 cors_headers (error_body "Method Not Allowed")), w)
| RunUnreadable e :
    has_method event "POST" ->
    read_body json_loads event = Raise e ->
    Run json_loads event w (on_exception e w)
| RunBadName d c :
    has_method event "POST" ->
    read_body json_loads event = Ok (d, c) ->
    name_ok d = false ->
    Run json_loads event w
        (Ok (mkResponse 400 cors_headers (error_body "Feedback name cannot be empty.")), w)
| RunBadEmail d c :
    has_method event "POST" ->
    read_body json_loads event = Ok (d, c) ->
    name_ok d = true -> email_ok d = false ->
    Run json_loads event w
        (Ok (mkResponse 400 cors_headers (error_body "Feedback email cannot be empty.")), w)
| RunBadComment d c :
    has_method event "POST" ->
    read_body json_loads event = Ok (d, c) ->
    name_ok d = true -> email_ok d = true -> comment_ok c = false ->
    Run json_loads event w
        (Ok (mkResponse 400 cors_headers (error_body "Feedback comment cannot be empty.")), w)
| RunBadRating d c :
    has_method event "POST" ->
    read_body json_loads event = Ok (d, c) ->
    name_ok d = true -> email_ok d = true -> comment_ok c = true ->
    rating_ok d = false ->
    Run json_loads event w
        (Ok (mkResponse 400 cors_headers
               (error_body "Rating must be an integer between 1 and 5.")), w)
| RunStoreFault d c e :
    has_method event "POST" ->
    read_body json_loads event = Ok (d, c) ->
    name_ok d = true -> email_ok d = true -> comment_ok c = true ->
    rating_ok d = true ->
    store_fault w (length (put_log w)) (new_item w d c) = Some e ->
    Run json_loads event w (on_exception e (after_put w (new_item w d c) false))
| RunStored d c :
    has_method event "POST" ->
    read_body json_loads event = Ok (d, c) ->
    name_ok d = true -> email_ok d = true -> comment_ok c = true ->
    rating_ok d = true ->
    store_fault w (length (put_log w)) (new_item w d c) = None ->
    Run json_loads event w
        (Ok (mkResponse 200 cors_headers (success_body (uuid_source w (uuid_drawn w)))),
         after_put w (new_item w d c) true).

(** ** Sample requests *)

Module Sample.

Definition dq : string := String (ascii_of_N 34) EmptyString.

(** A JSON object text from keys and value texts. *)
Fixpoint object_entries (kvs : list (string * string)) : string :=
  match kvs with
  | [] => EmptyString
  | [(k, v)] => dq +:+ k +:+ dq +:+ ":" +:+ v
  | (k, v) :: rest => dq +:+ k +:+ dq +:+ ":" +:+ v +:+ "," +:+ object_entries rest
  end.

Definition object (kvs : list (string * string)) : string :=
  "{" +:+ object_entries kvs +:+ "}".

Definition str (s : string) : string := dq +:+ s +:+ dq.

(** An API Gateway event with a method and a body text. *)
Definition request (method body_text : string) : list (string * pyval) :=
  [("httpMethod", PyStr method); ("body", PyStr body_text)].

(** A world whose table is empty and whose store accepts every item. *)
Definition world : World :=
  {| uuid_source := fun n =>
       match n with
       | O => "3f2b8c1e-7d4a-4e0b-9c55-0a1b2c3d4e5f"
       | _ => "a81d4fae-7dec-41d0-a765-00a0c91e6bf6"
       end;
     uuid_drawn := 0;
     clock_source := fun _ => "2024-05-01T12:00:00.000000";
     clock_read := 0;
     store_fault := fun _ _ => None;
     table := ∅;
     put_log := [] |}.

(** The same world with a store that refuses every write. *)
Definition world_down : World :=
  {| uuid_source := uuid_source world;
     uuid_drawn := 0;
     clock_source := clock_source world;
     clock_read := 0;
     store_fault := fun _ _ =>
       Some (Exn ClientError "An error occurred (ProvisionedThroughputExceededException) when calling the PutItem operation");
     table := ∅;
     put_log := [] |}.

(** The bodies of section 8 of the specification. *)
Definition good_body : string :=
  object [("name", str "A"); ("email", str "a@b.com");
          ("comment", str "hi"); ("rating", "5")].

Definition empty_name_body : string :=
  object [("name", str EmptyString); ("email", str "a@b.com");
          ("comment", str "hi"); ("rating", "5")].

Definition empty_email_body : string :=
  object [("name", str "A"); ("email", str EmptyString);
          ("comment", str "hi"); ("rating", "5")].

Definition blank_comment_body : string :=
  object [("name", str "A"); ("email", str "a@b.com");
          ("comment", str "   "); ("rating", "5")].

Definition rating_six_body : string :=
  object [("name", str "A"); ("email", str "a@b.com");
          ("comment", str "hi"); ("rating", "6")].

(** Further bodies used below. *)
Definition blank_name_body : string :=
  object [("name", str "   "); ("email", str "a@b.com");
          ("comment", str "hi"); ("rating", "5")].

Definition no_rating_body : string :=
  object [("name", str "A"); ("email", str "a@b.com"); ("comment", str "hi")].

Definition true_rating_body : string :=
  object [("name", str "A"); ("email", str "a@b.com");
          ("comment", str "hi"); ("rating", "true")].

(** A POST event without a body key, as a direct invocation can send. *)
Definition bodiless_post : list (string * pyval) :=
  [("httpMethod", PyStr "POST")].

(** The dict a body with these four values decodes to. *)
Definition fields (name email comment : string) (rating : pyval)
  : list (string * pyval) :=
  [("name", PyStr name); ("email", PyStr email);
   ("comment", PyStr comment); ("rating", rating)].

(** The item stored for such a body in [world]. *)
Definition item (name : string) (rating : pyval) : Item :=
  {| feedback_id := "3f2b8c1e-7d4a-4e0b-9c55-0a1b2c3d4e5f";
     Name := PyStr name;
     Email := PyStr "a@b.com";
     Category := PyStr "General";
     Rating := rating;
     Comment := "hi";
     Timestamp := "2024-05-01T12:00:00.000000" |}.

Definition accepted : Response :=
  {| statusCode := 200;
     headers := cors_headers;
     body := success_body "3f2b8c1e-7d4a-4e0b-9c55-0a1b2c3d4e5f" |}.

Definition rejected (message : string) : Response :=
  {| statusCode := 400;
     headers := cors_headers;
     body := error_body message |}.

End Sample.

(** ** Vocabulary of the further properties *)

(** The Python value a serialised scalar stands for. *)
Definition scalar_value (v : Json.scalar) : pyval :=
  match v with
  | Json.JBool b => PyBool b
  | Json.JStr s => PyStr s
  end.

(** The dict a dict literal of such scalars denotes: entries in order, a
    repeated key keeping its first place and its last value. *)
Definition dict_of (o : list (string * Json.scalar)) : list (string * pyval) :=
  fold_left (fun acc kv => dict_set (fst kv) (scalar_value (snd kv)) acc) o [].

(** Further sample requests. *)
Module Cases.

(** A POST as API Gateway sends it, with entries the handler never reads. *)
Definition proxied_post : list (string * pyval) :=
  [("resource", PyStr "/feedback");
   ("path", PyStr "/feedback");
   ("httpMethod", PyStr "POST");
   ("headers", PyDict [("Content-Type", PyStr "application/json")]);
   ("queryStringParameters", PyNone);
   ("body", PyStr Sample.good_body);
   ("isBase64Encoded", PyBool false)].

(** A POST without a body, for which API Gateway sends [null]. *)
Definition null_body_post : list (string * pyval) :=
  [("httpMethod", PyStr "POST"); ("body", PyNone)].

Definition array_body : string := "[1, 2]".

Definition numeric_comment_body : string :=
  Sample.object [("name", Sample.str EmptyString); ("comment", "7")].

Definition bare_body : string :=
  Sample.object [("comment", Sample.str " fine "); ("rating", "3")].

Definition no_comment_body : string :=
  Sample.object [("name", Sample.str "A"); ("email", Sample.str "a@b.com");
                 ("rating", "5")].

Definition tagged_body : string :=
  Sample.object [("name", Sample.str "A"); ("email", Sample.str "a@b.com");
                 ("comment", Sample.str "hi"); ("rating", "5");
                 ("source", Sample.str "web")].

Definition throttled : exn :=
  Exn ClientError
      "An error occurred (ProvisionedThroughputExceededException) when calling the PutItem operation".

(** The second item stored in [Sample.world]. *)
Definition second_item : Item :=
  {| feedback_id := "a81d4fae-7dec-41d0-a765-00a0c91e6bf6";
     Name := PyStr "A";
     Email := PyStr "a@b.com";
     Category := PyStr "General";
     Rating := PyInt 5;
     Comment := "hi";
     Timestamp := "2024-05-01T12:00:00.000000" |}.

End Cases.

(** * Properties *)

(** ** Strings and validations *)

Lemma lstrip_blank s : forallb isspace (list_ascii_of_string s) = true -> lstrip s = EmptyString.
Proof.
  induction s as [|ch s IH]; simpl; [reflexivity|].
  intros H. apply andb_prop in H as [Hc Hs]. rewrite Hc. auto.
Qed.

Lemma lstrip_empty_blank s : lstrip s = EmptyString -> forallb isspace (list_ascii_of_string s) = true.
Proof.
  induction s as [|ch s IH]; simpl; [reflexivity|].
  destruct (isspace ch); [auto | discriminate].
Qed.

Lemma rstrip_empty_blank s : rstrip s = EmptyString -> forallb isspace (list_ascii_of_string s) = true.
Proof.
  induction s as [|ch s IH]; simpl; [reflexivity|].
  destruct (rstrip s) eqn:E; [|discriminate].
  destruct (isspace ch); [intros _; auto | discriminate].
Qed.

Lemma lstrip_head s ch rest : lstrip s = String ch rest -> isspace ch = false.
Proof.
  induction s as [|a s IH]; simpl; [discriminate|].
  destruct (isspace a) eqn:E; [exact IH|].
  intros H. injection H as -> _. exact E.
Qed.

(** Stripping leaves nothing exactly when every character is blank. *)
Lemma str_strip_empty s :
  str_strip s = EmptyString <-> forallb isspace (list_ascii_of_string s) = true.
Proof.
  unfold str_strip. split.
  - intros H. destruct (lstrip s) as [|ch rest] eqn:E.
    + now apply lstrip_empty_blank.
    + apply rstrip_empty_blank in H. simpl in H.
      apply lstrip_head in E. rewrite E in H. discriminate.
  - intros H. now rewrite (lstrip_blank _ H).
Qed.

(** The comment test fails exactly on an empty stripped comment. *)
Lemma comment_ok_false c : comment_ok c = false <-> str_strip c = EmptyString.
Proof.
  unfold comment_ok, truthy. rewrite negb_false_iff. apply String.eqb_eq.
Qed.

(** The rating test passes exactly on an [int] instance standing for an
    integer from 1 to 5. *)
Lemma rating_rejected_false v :
  rating_rejected v = false <-> exists n, int_value v = Some n /\ 1 <= n <= 5.
Proof.
  unfold rating_rejected. split.
  - destruct v as [|b|n|x|s|l|d]; simpl; try discriminate.
    + destruct b; [|discriminate]. intros _. exists 1. split; [reflexivity|lia].
    + intros H. exists n. split; [reflexivity|]. lia.
  - intros (n & Hv & Hn).
    destruct v as [|b|m|x|s|l|d]; simpl in *; try discriminate;
      injection Hv as <-; [destruct b|]; lia.
Qed.

Section Properties.

Variable json_loads : string -> result pyval.

Lemma read_body_decodes event d c :
  decodes_to json_loads event d c -> read_body json_loads event = Ok (d, c).
Proof.
  intros (s & Hb & Hl & Hc). unfold read_body, getitem.
  rewrite Hb. simpl. rewrite Hl, Hc. reflexivity.
Qed.

(** *** The [try] body, path by path *)

(** An exception before the validations leaves the world as it was. *)
Lemma submit_raise event w e :
  read_body json_loads event = Raise e ->
  submit json_loads event w = (Raise e, w).
Proof.
  unfold read_body, submit, bind, lift.
  destruct (getitem event "body") as [raw|e0]; [|congruence].
  destruct (loads json_loads raw) as [v|e0]; [|congruence].
  destruct v as [|b|n|x|s|l|d]; simpl; try congruence.
  unfold field.
  destruct (default (PyStr EmptyString) (dict_lookup "comment" d));
    simpl; congruence.
Qed.

(** Once the fields are read, the four tests in order, then the write. *)
Lemma submit_read event w d c :
  read_body json_loads event = Ok (d, c) ->
  submit json_loads event w =
    if negb (name_ok d) then
      (Ok (mkResponse 400 cors_headers (error_body "Feedback name cannot be empty.")), w)
    else if negb (email_ok d) then
      (Ok (mkResponse 400 cors_headers (error_body "Feedback email cannot be empty.")), w)
    else if negb (comment_ok c) then
      (Ok (mkResponse 400 cors_headers (error_body "Feedback comment cannot be empty.")), w)
    else if negb (rating_ok d) then
      (Ok (mkResponse 400 cors_headers
             (error_body "Rating must be an integer between 1 and 5.")), w)
    else
      match store_fault w (length (put_log w)) (new_item w d c) with
      | Some e => (Raise e, after_put w (new_item w d c) false)
      | None =>
          (Ok (mkResponse 200 cors_headers (success_body (uuid_source w (uuid_drawn w)))),
           after_put w (new_item w d c) true)
      end.
Proof.
  unfold read_body, submit, bind, lift.
  destruct (getitem event "body") as [raw|e0]; [|congruence].
  destruct (loads json_loads raw) as [v|e0]; [|congruence].
  destruct v as [|b|n|x|s|l|d0]; try congruence.
  destruct (field d0 "comment" (PyStr EmptyString)) as [|b|n|x|s|l|d1] eqn:Hc;
    try congruence.
  intros H. injection H as -> ->.
  unfold get. fold (field d "name" (PyStr "Anonymous")).
  fold (field d "email" (PyStr "N/A")).
  fold (field d "category" (PyStr "General")).
  fold (field d "rating" (PyInt 0)).
  fold (field d "comment" (PyStr EmptyString)). rewrite Hc.
  unfold strip. fold (name_ok d). fold (email_ok d). fold (comment_ok c).
  unfold rating_ok. rewrite negb_involutive.
  destruct (name_ok d); [|reflexivity].
  destruct (email_ok d); [|reflexivity].
  destruct (comment_ok c); [|reflexivity].
  destruct (rating_rejected (field d "rating" (PyInt 0))); [reflexivity|].
  cbn [negb]. unfold ret, uuid4, now_isoformat, put_item, new_item, after_put. cbn.
  destruct (store_fault w _ _); reflexivity.
Qed.


Lemma read_body_inv event d c :
  read_body json_loads event = Ok (d, c) -> decodes_to json_loads event d c.
Proof.
  unfold read_body, getitem, decodes_to.
  destruct (dict_lookup "body" event) as [raw|] eqn:Hb; [|discriminate].
  destruct raw as [|b|n|x|s|l|d0]; simpl; try discriminate.
  destruct (json_loads s) as [v|e0] eqn:Hl; [|discriminate].
  destruct v as [|b|n|x|s0|l|d0]; try discriminate.
  destruct (field d0 "comment" (PyStr EmptyString)) as [|b|n|x|s0|l|d1] eqn:Hc;
    try discriminate.
  intros H. injection H as -> ->. exists s. auto.
Qed.

Lemma eq_str_true v s : eq_str v s = true -> v = PyStr s.
Proof.
  destruct v; simpl; try discriminate.
  intros H. apply String.eqb_eq in H. now subst.
Qed.

(** Every [except] clause returns a response and touches nothing. *)
Lemma on_exception_ret e w :
  exists r, on_exception e w = (Ok r, w) /\
            headers r = cors_headers /\ (statusCode r = 400 \/ statusCode r = 500).
Proof.
  unfold on_exception, ret.
  destruct (exc_type e); eexists; (split; [reflexivity|]); simpl; auto.
Qed.

Lemma handler_post event w :
  has_method event "POST" ->
  lambda_handler json_loads event w =
  try_except (submit json_loads event) on_exception w.
Proof.
  unfold has_method, lambda_handler, bind, lift, getitem.
  intros ->. reflexivity.
Qed.

(** The handler always follows one of the paths of [Run]. *)
Lemma handler_run event w :
  Run json_loads event w (lambda_handler json_loads event w).
Proof.
  destruct (dict_lookup "httpMethod" event) as [method|] eqn:Hm.
  2:{ unfold lambda_handler, bind, lift, getitem. rewrite Hm.
      now apply RunNoMethod. }
  destruct (eq_str method "OPTIONS") eqn:Ho.
  { apply eq_str_true in Ho. subst method.
    unfold lambda_handler, bind, lift, getitem. rewrite Hm.
    now apply RunOptions. }
  destruct (eq_str method "POST") eqn:Hp.
  2:{ unfold lambda_handler, bind, lift, getitem. rewrite Hm, Ho, Hp.
      now apply (RunNotAllowed _ _ _ method). }
  apply eq_str_true in Hp. subst method.
  rewrite (handler_post _ _ Hm). unfold try_except.
  destruct (read_body json_loads event) as [[d c]|e] eqn:Hr.
  2:{ rewrite (submit_raise _ _ _ Hr). now apply RunUnreadable. }
  rewrite (submit_read _ _ _ _ Hr).
  destruct (name_ok d) eqn:Hn; cbn [negb]; [|now apply (RunBadName _ _ _ d c)].
  destruct (email_ok d) eqn:He; cbn [negb]; [|now apply (RunBadEmail _ _ _ d c)].
  destruct (comment_ok c) eqn:Hc; cbn [negb]; [|now apply (RunBadComment _ _ _ d c)].
  destruct (rating_ok d) eqn:Hg; cbn [negb]; [|now apply (RunBadRating _ _ _ d c)].
  destruct (store_fault w (length (put_log w)) (new_item w d c)) as [e|] eqn:Hs.
  - now apply (RunStoreFault _ _ _ d c e).
  - now apply (RunStored _ _ _ d c).
Qed.

(** A response comes with the CORS headers on every path. *)
Lemma run_headers event w r w' :
  Run json_loads event w (Ok r, w') -> headers r = cors_headers.
Proof.
  intros R. inversion R; subst; try reflexivity;
    match goal with
    | H : on_exception ?e ?w0 = _ |- _ =>
        destruct (on_exception_ret e w0) as (r0 & E & Hh & _); congruence
    end.
Qed.

(** A request that is not a valid POST leaves the world untouched. *)
Lemma run_invalid event w out :
  Run json_loads event w out -> valid_post json_loads event = false -> snd out = w.
Proof.
  intros R. unfold valid_post.
  destruct R; try reflexivity;
    try match goal with
    | |- context [on_exception ?e ?w0] =>
        destruct (on_exception_ret e w0) as (r0 & E & _)
    end;
    try (rewrite E; reflexivity);
    match goal with
    | Hm : has_method _ _, Hr : read_body _ _ = _ |- _ =>
        unfold has_method in Hm; rewrite Hm, Hr; cbn [eq_str String.eqb]
    end;
    repeat match goal with H : _ = true |- _ => rewrite H; clear H end;
    discriminate.
Qed.

(** A valid POST has exactly one [put_item] call made for it. *)
Lemma run_valid event w out :
  Run json_loads event w out -> valid_post json_loads event = true ->
  exists d c, read_body json_loads event = Ok (d, c) /\
              put_log (snd out) = (put_log w ++ [new_item w d c])%list.
Proof.
  intros R. unfold valid_post.
  destruct R;
    try match goal with
    | Hm : has_method _ _ |- _ => unfold has_method in Hm; rewrite Hm
    | Hm : dict_lookup _ _ = _ |- _ => rewrite Hm
    end; cbn [eq_str];
    try match goal with Hr : read_body _ _ = _ |- _ => rewrite Hr end;
    repeat match goal with H : _ = _ :> bool |- _ => rewrite H; clear H end;
    cbn; try discriminate.
  - intros _. exists d, c. split; [reflexivity|].
    destruct (on_exception_ret e (after_put w (new_item w d c) false)) as (r0 & E & _).
    rewrite E. reflexivity.
  - intros _. exists d, c. split; reflexivity.
Qed.

(** The table changes on the success path only. *)
Lemma run_table event w r w' :
  Run json_loads event w (Ok r, w') ->
  statusCode r <> 200 \/ has_method event "OPTIONS" -> table w' = table w.
Proof.
  intros R Hs. inversion R; subst; try reflexivity;
    try match goal with
    | H : on_exception ?e ?w0 = _ |- _ =>
        destruct (on_exception_ret e w0) as (r0 & E & _);
        rewrite E in H; injection H as <- <-; reflexivity
    end.
  destruct Hs as [Hs|Hs]; [now elim Hs|].
  unfold has_method in *. congruence.
Qed.

(** The start of every proof about an accepted or rejected POST: the
    handler is the [try] statement, and the fields have been read. *)
Lemma handler_read event w d c :
  has_method event "POST" -> decodes_to json_loads event d c ->
  lambda_handler json_loads event w =
  try_except
    (fun w0 =>
       if negb (name_ok d) then
         (Ok (mkResponse 400 cors_headers (error_body "Feedback name cannot be empty.")), w0)
       else if negb (email_ok d) then
         (Ok (mkResponse 400 cors_headers (error_body "Feedback email cannot be empty.")), w0)
       else if negb (comment_ok c) then
         (Ok (mkResponse 400 cors_headers (error_body "Feedback comment cannot be empty.")), w0)
       else if negb (rating_ok d) then
         (Ok (mkResponse 400 cors_headers
                (error_body "Rating must be an integer between 1 and 5.")), w0)
       else
         match store_fault w0 (length (put_log w0)) (new_item w0 d c) with
         | Some e => (Raise e, after_put w0 (new_item w0 d c) false)
         | None =>
             (Ok (mkResponse 200 cors_headers
                    (success_body (uuid_source w0 (uuid_drawn w0)))),
              after_put w0 (new_item w0 d c) true)
         end)
    on_exception w.
Proof.
  intros Hm Hd. rewrite (handler_post _ _ Hm). unfold try_except.
  now rewrite (submit_read _ _ _ _ (read_body_decodes _ _ _ Hd)).
Qed.

(** ** The claims *)






(** C9.  Whatever response the handler returns, on whatever path, its
    headers are the three CORS headers. *)
Theorem cors_headers_on_every_response event w r w' :
  lambda_handler json_loads event w = (Ok r, w') ->
  headers r =
    [("Access-Control-Allow-Origin", "*");
     ("Access-Control-Allow-Headers",
      "Content-Type,X-Amz-Date,Authorization,X-Api-Key,X-Amz-Security-Token");
     ("Access-Control-Allow-Methods", "POST,OPTIONS")].
Proof.
  intros H. pose proof (handler_run event w) as R. rewrite H in R.
  exact (run_headers _ _ _ _ R).
Qed.


(** What [valid_post] computes, in words: the method is POST, the body
    decodes to a dict with a string comment, and the four tests pass. *)
Lemma valid_post_true event :
  valid_post json_loads event = true <->
  has_method event "POST" /\
  exists d c, decodes_to json_loads event d c /\
              name_ok d = true /\ email_ok d = true /\
              comment_ok c = true /\ rating_ok d = true.
Proof.
  unfold valid_post, has_method. split.
  - destruct (dict_lookup "httpMethod" event) as [method|]; [|discriminate].
    intros H. apply andb_prop in H as [Hm H].
    apply eq_str_true in Hm. subst method. split; [reflexivity|].
    destruct (read_body json_loads event) as [[d c]|e] eqn:Hr; [|discriminate].
    exists d, c. split; [now apply read_body_inv|].
    repeat (apply andb_prop in H as [H ?]). auto.
  - intros (-> & d & c & Hd & Hn & He & Hc & Hg).
    rewrite (read_body_decodes _ _ _ Hd), Hn, He, Hc, Hg. reflexivity.
Qed.




End Properties.

(** ** The claims on sample requests *)






Lemma cors_headers_on_every_response_witness :
  headers {| statusCode := 405;
             headers := cors_headers;
             body := error_body "Method Not Allowed" |}
  = [("Access-Control-Allow-Origin", "*");
     ("Access-Control-Allow-Headers",
      "Content-Type,X-Amz-Date,Authorization,X-Api-Key,X-Amz-Security-Token");
     ("Access-Control-Allow-Methods", "POST,OPTIONS")].
Proof.
  apply (cors_headers_on_every_response Decoder.json_loads
           (Sample.request "GET" Sample.good_body) Sample.world _ Sample.world).
  reflexivity.
Defined.




(** ** Further requests *)

(** Section 8 of the specification: any other method is answered 405. *)
Example get_is_not_allowed :
  lambda_handler Decoder.json_loads (Sample.request "GET" Sample.good_body) Sample.world
  = (Ok {| statusCode := 405;
           headers := cors_headers;
           body := error_body "Method Not Allowed" |}, Sample.world).
Proof. reflexivity. Qed.

(** Two submissions in a row are stored under two identifiers. *)
Example two_submissions_two_items :
  let event := Sample.request "POST" Sample.good_body in
  let w1 := snd (lambda_handler Decoder.json_loads event Sample.world) in
  let w2 := snd (lambda_handler Decoder.json_loads event w1) in
  map feedback_id (put_log w2)
  = ["3f2b8c1e-7d4a-4e0b-9c55-0a1b2c3d4e5f"; "a81d4fae-7dec-41d0-a765-00a0c91e6bf6"]
  /\ size (table w2) = 2%nat.
Proof. vm_compute. split; reflexivity. Qed.

(** A store that refuses the write: the call is made, nothing is stored,
    and the fault comes back as a 500. *)
Example store_fault_is_500 :
  let out := lambda_handler Decoder.json_loads
               (Sample.request "POST" Sample.good_body) Sample.world_down in
  fst out
  = Ok {| statusCode := 500;
          headers := cors_headers;
          body := error_body
            "Internal server error: An error occurred (ProvisionedThroughputExceededException) when calling the PutItem operation" |}
  /\ put_log (snd out) = [Sample.item "A" (PyInt 5)]
  /\ table (snd out) = ∅.
Proof. split; [reflexivity|]. split; reflexivity. Qed.

(** Requests outside the input the specification describes.  API Gateway
    sends [null] as the body of a POST without one: [json.loads] raises
    [TypeError], not [JSONDecodeError], and the answer is a 500. *)
Example null_body_is_500 :
  fst (lambda_handler Decoder.json_loads
         [("httpMethod", PyStr "POST"); ("body", PyNone)] Sample.world)
  = Ok {| statusCode := 500;
          headers := cors_headers;
          body := error_body
            "Internal server error: the JSON object must be str, bytes or bytearray, not NoneType" |}.
Proof. reflexivity. Qed.

(** A body that is JSON but not an object has no [get]. *)
Example array_body_is_500 :
  fst (lambda_handler Decoder.json_loads (Sample.request "POST" "[1, 2]") Sample.world)
  = Ok {| statusCode := 500;
          headers := cors_headers;
          body := error_body "Internal server error: 'list' object has no attribute 'get'" |}.
Proof. reflexivity. Qed.

(** A comment that is not a string has no [strip]; the fault comes before
    the validations, here before the empty name is looked at. *)
Example numeric_comment_is_500 :
  fst (lambda_handler Decoder.json_loads
         (Sample.request "POST"
            (Sample.object [("name", Sample.str EmptyString); ("comment", "7")]))
         Sample.world)
  = Ok {| statusCode := 500;
          headers := cors_headers;
          body := error_body "Internal server error: 'int' object has no attribute 'strip'" |}.
Proof. reflexivity. Qed.

(** A rating with a fraction is a [float], never an [int]. *)
Example float_rating_is_rejected :
  lambda_handler Decoder.json_loads
    (Sample.request "POST"
       (Sample.object [("name", Sample.str "A"); ("email", Sample.str "a@b.com");
                       ("comment", Sample.str "hi"); ("rating", "5.0")]))
    Sample.world
  = (Ok (Sample.rejected "Rating must be an integer between 1 and 5."), Sample.world).
Proof. vm_compute. reflexivity. Qed.

(** Without a method the [KeyError] leaves the handler. *)
Example no_method_raises :
  fst (lambda_handler Decoder.json_loads [("body", PyStr Sample.good_body)] Sample.world)
  = Raise (Exn KeyError "'httpMethod'").
Proof. reflexivity. Qed.

(** ** Where the specification and the handler part *)



(** * The rest of the handler *)

(** ** More on strings and on the rating test *)

Lemma rstrip_idempotent s : rstrip (rstrip s) = rstrip s.
Proof.
  induction s as [|ch s IH]; simpl; [reflexivity|].
  destruct (rstrip s) as [|k ks] eqn:E.
  - destruct (isspace ch) eqn:Hc; simpl; [reflexivity|]. now rewrite Hc.
  - simpl in *. rewrite IH. reflexivity.
Qed.

Lemma rstrip_keeps_head ch rest :
  isspace ch = false -> exists kept, rstrip (String ch rest) = String ch kept.
Proof.
  intros Hc. simpl. destruct (rstrip rest) as [|k ks].
  - rewrite Hc. now exists EmptyString.
  - now exists (String k ks).
Qed.

(** A stripped string is left alone by a second [strip]. *)
Lemma str_strip_idempotent s : str_strip (str_strip s) = str_strip s.
Proof.
  unfold str_strip. destruct (lstrip s) as [|ch rest] eqn:E; [reflexivity|].
  pose proof (lstrip_head _ _ _ E) as Hc.
  destruct (rstrip_keeps_head ch rest Hc) as [kept Hk].
  rewrite Hk. simpl lstrip. rewrite Hc. rewrite <- Hk. apply rstrip_idempotent.
Qed.

Lemma eq_str_false v s : v <> PyStr s -> eq_str v s = false.
Proof.
  intros H. destruct (eq_str v s) eqn:E; [|reflexivity].
  apply eq_str_true in E. contradiction.
Qed.

(** X13.  The rating test of line 82 lets through exactly the integers 1
    to 5 and the boolean [True]: [False], every [float] (5.0 too), every
    string and [None] are rejected. *)
Theorem accepted_ratings v :
  rating_rejected v = false <->
  v = PyBool true \/ exists n, v = PyInt n /\ 1 <= n <= 5.
Proof.
  unfold rating_rejected. split.
  - destruct v as [|b|n|x|s|l|d]; simpl; try discriminate.
    + destruct b; [auto|discriminate].
    + intros H. right. exists n. split; [reflexivity|lia].
  - intros [->|(n & -> & Hn)]; simpl; [reflexivity|lia].
Qed.

Section Coverage.

Variable json_loads : string -> result pyval.

(** ** Method dispatch (lines 41, 49, 156-161) *)



(** ** Faults before the validations (lines 53-61, 129-153) *)






(** ** What the handler reads (lines 41-61) *)



(** ** The write and what is stored (lines 89-127) *)



(** X10.  Whenever a POST is answered with 200, the table holds, under
    the identifier the response carries, an item whose email is truthy,
    whose comment is not empty and is already stripped, whose rating is
    an [int] instance standing for 1 to 5, whose key is the identifier
    drawn by this call and whose timestamp is the clock reading of this
    call. *)
Theorem stored_item_is_valid event w r w' :
  has_method event "POST" ->
  lambda_handler json_loads event w = (Ok r, w') ->
  statusCode r = 200 ->
  exists it,
    table w' !! feedback_id it = Some it
    /\ body r = Json.dumps [("success", Json.JBool true);
                            ("message", Json.JStr "Feedback submitted successfully!");
                            ("feedbackId", Json.JStr (feedback_id it))]
    /\ feedback_id it = uuid_source w (uuid_drawn w)
    /\ Timestamp it = clock_source w (clock_read w)
    /\ truthy (Email it) = true
    /\ Comment it <> EmptyString
    /\ str_strip (Comment it) = Comment it
    /\ exists n, int_value (Rating it) = Some n /\ 1 <= n <= 5.
Proof.
  intros Hm H Hs. pose proof (handler_run json_loads event w) as R. rewrite H in R.
  inversion R; subst; simpl in Hs; try discriminate;
    try match goal with
    | E : on_exception ?e ?w0 = _ |- _ =>
        destruct (on_exception_ret e w0) as (r0 & E' & _ & [Hc|Hc]);
        rewrite E' in E; injection E as <- <-; rewrite Hc in Hs; discriminate
    end.
  - unfold has_method in *. congruence.
  - exists (new_item w d c).
    cbn [after_put table feedback_id new_item Email Comment Rating Timestamp body].
    split; [apply lookup_insert_eq|]. split; [reflexivity|].
    split; [reflexivity|]. split; [reflexivity|].
    split; [assumption|].
    split.
    { intros E. match goal with Hc : comment_ok c = true |- _ =>
        unfold comment_ok in Hc; rewrite E in Hc; discriminate end. }
    split; [apply str_strip_idempotent|].
    apply rating_rejected_false.
    match goal with Hg : rating_ok d = true |- _ =>
      unfold rating_ok in Hg; now apply negb_true_iff in Hg end.
Qed.

(** ** Calls in a row and what a call leaves alone *)


(** The world a run leaves, path by path: the sources are the same, the
    log is extended by at most one call, and the table is the old one or
    the old one with one item put under the identifier drawn. *)
Lemma run_frame event w out :
  Run json_loads event w out ->
  uuid_source (snd out) = uuid_source w
  /\ clock_source (snd out) = clock_source w
  /\ store_fault (snd out) = store_fault w
  /\ (exists calls, put_log (snd out) = (put_log w ++ calls)%list
                    /\ (length calls <= 1)%nat)
  /\ (table (snd out) = table w
      \/ exists it, feedback_id it = uuid_source w (uuid_drawn w)
                    /\ table (snd out) = <[feedback_id it := it]> (table w)).
Proof.
  assert (Hsame : forall w0, uuid_source w0 = uuid_source w0
            /\ clock_source w0 = clock_source w0
            /\ store_fault w0 = store_fault w0
            /\ (exists calls, put_log w0 = (put_log w0 ++ calls)%list
                              /\ (length calls <= 1)%nat)
            /\ (table w0 = table w0
                \/ exists it, feedback_id it = uuid_source w0 (uuid_drawn w0)
                              /\ table w0 = <[feedback_id it := it]> (table w0))).
  { intros w0. repeat split; auto.
    exists []. split; [now rewrite app_nil_r|simpl; lia]. }
  intros R. destruct R; cbn [snd]; try apply Hsame.
  - destruct (on_exception_ret e w) as (r0 & E & _). rewrite E. apply Hsame.
  - destruct (on_exception_ret e (after_put w (new_item w d c) false)) as (r0 & E & _).
    rewrite E. cbn [snd after_put uuid_source clock_source store_fault put_log table].
    repeat split; auto. exists [new_item w d c]. split; [reflexivity|simpl; lia].
  - cbn [after_put uuid_source clock_source store_fault put_log table].
    repeat split. { exists [new_item w d c]. split; [reflexivity|simpl; lia]. }
    right. exists (new_item w d c). split; reflexivity.
Qed.

(** X12.  What no call does, whatever the event: it never deletes an
    item, never touches an item stored under a key other than the
    identifier it draws, makes at most one [put_item] call and keeps the
    record of earlier ones. *)
Theorem table_is_only_added_to event w :
  let w' := snd (lambda_handler json_loads event w) in
  (forall k, k <> uuid_source w (uuid_drawn w) -> table w' !! k = table w !! k)
  /\ (forall k, is_Some (table w !! k) -> is_Some (table w' !! k))
  /\ (exists calls, put_log w' = (put_log w ++ calls)%list /\ (length calls <= 1)%nat).
Proof.
  intros w'. subst w'.
  destruct (run_frame _ _ _ (handler_run json_loads event w))
    as (_ & _ & _ & Hlog & [Ht|(it & Hid & Ht)]).
  - rewrite Ht. auto.
  - rewrite Ht. split; [|split; [|exact Hlog]].
    + intros k Hk. apply lookup_insert_ne. congruence.
    + intros k Hk. destruct (decide (feedback_id it = k)) as [<-|Hne].
      * rewrite lookup_insert_eq. eauto.
      * now rewrite lookup_insert_ne.
Qed.

(** ** The shape of a response (lines 42-46, 65-87, 119-161) *)

(** A response is of one of three shapes: 200 with the empty body, to
    an OPTIONS request; 200 with the success body, to a POST; or 400,
    405 or 500 with an error body, never to an OPTIONS request. *)
Lemma response_cases event w r w' :
  lambda_handler json_loads event w = (Ok r, w') ->
  (has_method event "OPTIONS" /\ statusCode r = 200 /\ body r = EmptyString)
  \/ (has_method event "POST" /\ statusCode r = 200 /\
      exists id,
        body r = Json.dumps [("success", Json.JBool true);
                             ("message", Json.JStr "Feedback submitted successfully!");
                             ("feedbackId", Json.JStr id)])
  \/ (~ has_method event "OPTIONS" /\
      (statusCode r = 400 \/ statusCode r = 405 \/ statusCode r = 500) /\
      exists message,
        body r = Json.dumps [("success", Json.JBool false);
                             ("error", Json.JStr message)]).
Proof.
  intros H. pose proof (handler_run json_loads event w) as R. rewrite H in R.
  assert (Hpost : has_method event "POST" -> ~ has_method event "OPTIONS")
    by (unfold has_method; congruence).
  assert (Hexc : forall e w0, has_method event "POST" ->
            on_exception e w0 = (Ok r, w') ->
            ~ has_method event "OPTIONS" /\
            (statusCode r = 400 \/ statusCode r = 405 \/ statusCode r = 500) /\
            exists message,
              body r = Json.dumps [("success", Json.JBool false);
                                   ("error", Json.JStr message)]).
  { intros e w0 Hm E. split; [auto|]. unfold on_exception, ret in E.
    destruct (exc_type e); injection E as <- <-; cbn [statusCode body]; eauto 8. }
  inversion R; subst; cbn [statusCode body]; eauto 10.
  - right. right. split; [|eauto 8].
    unfold has_method. intros E.
    match goal with
    | Hm : dict_lookup _ _ = Some ?m, Ho : eq_str ?m "OPTIONS" = false |- _ =>
        rewrite Hm in E; injection E as ->; discriminate
    end.
  all: right; right; split; [auto|]; eauto 8.
Qed.

Lemma dumps_not_empty o : Json.dumps o <> EmptyString.
Proof. unfold Json.dumps. intros H. inversion H. Qed.

(** X3.  The status of a response is 200, 400, 405 or 500.  The body is
    the empty string exactly for an OPTIONS request, which is answered
    200; for any other request it is a serialised dict whose first entry
    is [success], true exactly when the status is 200. *)
Theorem response_shapes event w r w' :
  lambda_handler json_loads event w = (Ok r, w') ->
  (statusCode r = 200 \/ statusCode r = 400 \/ statusCode r = 405 \/ statusCode r = 500)
  /\ (body r = EmptyString <-> has_method event "OPTIONS")
  /\ (has_method event "OPTIONS" -> statusCode r = 200)
  /\ (~ has_method event "OPTIONS" ->
      exists rest,
        body r = Json.dumps (("success", Json.JBool (statusCode r =? 200)) :: rest)).
Proof.
  intros H.
  destruct (response_cases _ _ _ _ H)
    as [(Ho & Hs & Hb)|[(Hp & Hs & id & Hb)|(Hno & Hs & message & Hb)]].
  - split; [auto|]. split; [tauto|]. split; [auto|]. intros Hn. contradiction.
  - assert (Hno : ~ has_method event "OPTIONS") by (unfold has_method in *; congruence).
    split; [auto|]. split; [|split].
    + rewrite Hb. split; [intros E; now apply dumps_not_empty in E|tauto].
    + tauto.
    + intros _. rewrite Hs, Hb. eauto.
  - split; [tauto|]. split; [|split].
    + rewrite Hb. split; [intros E; now apply dumps_not_empty in E|tauto].
    + tauto.
    + intros _. rewrite Hb. exists [("error", Json.JStr message)].
      destruct Hs as [-> | [-> | ->]]; reflexivity.
Qed.

End Coverage.

(** ** The body of a response, read back (lines 68-160) *)

Ltac push_append :=
  repeat first
    [ progress change (String ?ch ?a +:+ ?b) with (String ch (a +:+ b))
    | progress change (EmptyString +:+ ?b) with b ].

Lemma append_assoc (a b t : string) : (a +:+ b) +:+ t = a +:+ (b +:+ t).
Proof.
  induction a as [|ch a IH]; [reflexivity|].
  change (String ch ((a +:+ b) +:+ t) = String ch (a +:+ b +:+ t)). now rewrite IH.
Qed.

Lemma length_append (a b : string) :
  String.length (a +:+ b) = (String.length a + String.length b)%nat.
Proof.
  induction a as [|ch a IH]; [reflexivity|].
  change (S (String.length (a +:+ b)) = S (String.length a + String.length b)).
  now rewrite IH.
Qed.

(** The decoder undoes the escape of one character, whichever it is. *)
Lemma string_body_escape_char c tail :
  Decoder.string_body (Json.escape_char c +:+ tail)
  = Decoder.cons_char c (Decoder.string_body tail).
Proof.
  destruct c as [b0 b1 b2 b3 b4 b5 b6 b7].
  destruct b0, b1, b2, b3, b4, b5, b6, b7; reflexivity.
Qed.

Lemma string_body_escape s rest :
  Decoder.string_body (Json.escape s +:+ String (ascii_of_N 34) rest) = Some (s, rest).
Proof.
  induction s as [|ch s IH]; [reflexivity|].
  change (Json.escape (String ch s)) with (Json.escape_char ch +:+ Json.escape s).
  rewrite append_assoc, string_body_escape_char, IH. reflexivity.
Qed.

Lemma quote_append s rest :
  Json.quote s +:+ rest
  = String (ascii_of_N 34) (Json.escape s +:+ String (ascii_of_N 34) rest).
Proof. unfold Json.quote. rewrite append_assoc. reflexivity. Qed.

Lemma value_quote fuel s rest :
  Decoder.value (S fuel) (Json.quote s +:+ rest) = Some (PyStr s, rest).
Proof. rewrite quote_append. simpl. now rewrite string_body_escape. Qed.

Lemma value_scalar fuel v rest :
  (1 <= fuel)%nat ->
  Decoder.value fuel (Json.dumps_scalar v +:+ rest) = Some (scalar_value v, rest).
Proof.
  intros Hf. destruct fuel as [|fuel]; [lia|].
  destruct v as [[|]|s]; [reflexivity|reflexivity|apply value_quote].
Qed.

Lemma skip_ws_quote s rest :
  Decoder.skip_ws (Json.quote s +:+ rest) = Json.quote s +:+ rest.
Proof. rewrite quote_append. reflexivity. Qed.

Lemma skip_ws_scalar v rest :
  Decoder.skip_ws (Json.dumps_scalar v +:+ rest) = Json.dumps_scalar v +:+ rest.
Proof.
  destruct v as [[|]|s]; [reflexivity|reflexivity|apply skip_ws_quote].
Qed.

Lemma entries_cons kv o rest :
  Json.dumps_entries (kv :: o) +:+ rest
  = Json.quote (fst kv) +:+ ": " +:+ Json.dumps_scalar (snd kv) +:+
    match o with
    | [] => rest
    | _ :: _ => ", " +:+ Json.dumps_entries o +:+ rest
    end.
Proof.
  destruct o as [|kv' o]; cbn [Json.dumps_entries]; unfold Json.dumps_entry;
    now rewrite !append_assoc.
Qed.

(** The members of a serialised dict literal are read back one by one. *)
Lemma members_entries o : forall kv fuel acc,
  (length o + 2 <= fuel)%nat ->
  Decoder.members fuel (Json.dumps_entries (kv :: o) +:+ "}") acc
  = Some (PyDict (fold_left (fun acc kv => dict_set (fst kv) (scalar_value (snd kv)) acc)
                            (kv :: o) acc), EmptyString).
Proof.
  induction o as [|kv' o IH]; intros [k v] fuel acc Hf;
    (destruct fuel as [|fuel]; [simpl in Hf; lia|]);
    rewrite entries_cons, quote_append; cbn [fst snd].
  - simpl. rewrite string_body_escape. push_append. simpl.
    rewrite skip_ws_scalar, value_scalar by (simpl in Hf; lia). reflexivity.
  - cbn iota.
    assert (HT : Decoder.skip_ws (Json.dumps_entries (kv' :: o) +:+ "}")
                 = Json.dumps_entries (kv' :: o) +:+ "}")
      by (rewrite entries_cons; apply skip_ws_quote).
    specialize (IH kv' fuel (dict_set k (scalar_value v) acc)).
    remember (Json.dumps_entries (kv' :: o) +:+ "}") as T eqn:ET.
    simpl. rewrite string_body_escape. push_append. simpl.
    rewrite skip_ws_scalar, value_scalar by (simpl in Hf; lia). push_append. simpl.
    rewrite HT. rewrite IH by (simpl in Hf; lia). reflexivity.
Qed.

Lemma entries_length o : (length o <= String.length (Json.dumps_entries o))%nat.
Proof.
  induction o as [|kv o IH]; [simpl; lia|].
  destruct o as [|kv' o].
  - cbn [Json.dumps_entries]. unfold Json.dumps_entry. rewrite quote_append. simpl. lia.
  - change (Json.dumps_entries (kv :: kv' :: o))
      with (Json.dumps_entry kv +:+ ", " +:+ Json.dumps_entries (kv' :: o)).
    rewrite !length_append. simpl in *. lia.
Qed.

Lemma value_object fuel text tail :
  text = String (ascii_of_N 34) tail ->
  Decoder.value (S fuel) (String "{" text) = Decoder.members fuel text [].
Proof. intros ->. reflexivity. Qed.

(** Decoding what [Json.dumps] wrote gives back the dict: whatever the
    strings in it hold (quotes, backslashes, control characters, code
    points above 126), the escapes are undone exactly. *)
Lemma loads_dumps o :
  Decoder.json_loads (Json.dumps o) = Ok (PyDict (dict_of o)).
Proof.
  unfold Decoder.json_loads, Json.dumps, dict_of.
  destruct o as [|kv o]; [reflexivity|].
  push_append.
  change (Decoder.skip_ws (String "{" ?x)) with (String "{" x).
  assert (Hq : exists tail, Json.dumps_entries (kv :: o) +:+ "}"
                            = String (ascii_of_N 34) tail)
    by (rewrite entries_cons, quote_append; eauto).
  destruct Hq as [tail Hq].
  rewrite (value_object _ _ tail Hq).
  rewrite members_entries; [reflexivity|].
  change (String.length (String "{" ?x)) with (S (String.length x)).
  rewrite length_append. pose proof (entries_length (kv :: o)) as Hlen.
  cbn [length] in *. lia.
Qed.


(** ** The further properties on sample requests *)


Lemma response_shapes_witness :
  (statusCode Sample.accepted = 200 \/ statusCode Sample.accepted = 400
   \/ statusCode Sample.accepted = 405 \/ statusCode Sample.accepted = 500)
  /\ (body Sample.accepted = EmptyString
      <-> has_method (Sample.request "POST" Sample.good_body) "OPTIONS")
  /\ (has_method (Sample.request "POST" Sample.good_body) "OPTIONS" ->
      statusCode Sample.accepted = 200)
  /\ (~ has_method (Sample.request "POST" Sample.good_body) "OPTIONS" ->
      exists rest,
        body Sample.accepted
        = Json.dumps (("success", Json.JBool (statusCode Sample.accepted =? 200)) :: rest)).
Proof.
  apply (response_shapes Decoder.json_loads
           (Sample.request "POST" Sample.good_body) Sample.world Sample.accepted
           (snd (lambda_handler Decoder.json_loads
                   (Sample.request "POST" Sample.good_body) Sample.world))).
  reflexivity.
Defined.










Lemma stored_item_is_valid_witness :
  exists it,
    table (snd (lambda_handler Decoder.json_loads
                  (Sample.request "POST" Sample.good_body) Sample.world))
      !! feedback_id it = Some it
    /\ body Sample.accepted
       = Json.dumps [("success", Json.JBool true);
                     ("message", Json.JStr "Feedback submitted successfully!");
                     ("feedbackId", Json.JStr (feedback_id it))]
    /\ feedback_id it = "3f2b8c1e-7d4a-4e0b-9c55-0a1b2c3d4e5f"
    /\ Timestamp it = "2024-05-01T12:00:00.000000"
    /\ truthy (Email it) = true
    /\ Comment it <> EmptyString
    /\ str_strip (Comment it) = Comment it
    /\ exists n, int_value (Rating it) = Some n /\ 1 <= n <= 5.
Proof.
  apply (stored_item_is_valid Decoder.json_loads
           (Sample.request "POST" Sample.good_body) Sample.world Sample.accepted);
    reflexivity.
Defined.


